(** * Request dependencies of the xlwings server: [app/dependencies.py]

    A shallow embedding of the four request-scoped dependencies
    [parse_book_input], [get_book], [authenticate] and [get_user], with the
    effects the Python code performs (reading the request body, opening and
    closing the book, logging, importing a provider module, calling its
    [validate_token], the role and authorization checks) recorded in a
    trace, and exceptions carried in the result. *)

From Stdlib Require Import String Ascii NArith ZArith Lia.
From Stdlib.Strings Require Import Byte.
From stdpp Require Import base option list strings gmap.

Local Open Scope string_scope.
Local Open Scope Z_scope.

(** ** Python values used by the module *)

Module Py.

(** Exceptions.  [HTTPException] carries the two attributes the module
    sets; every other exception is known by its method resolution order
    (its class first, then the base classes) and a message. *)
Inductive exn : Type :=
| HTTPException (status_code : Z) (detail : string)
| PyErr (mro : list string) (msg : string).

Definition mro_of (e : exn) : list string :=
  match e with
  | HTTPException _ _ => ["HTTPException"; "Exception"; "BaseException"]
  | PyErr mro _ => mro
  end.

(** [isinstance(e, cls)] *)
Definition isinstance (e : exn) (cls : string) : bool :=
  existsb (String.eqb cls) (mro_of e).

Definition ValueError (msg : string) : exn :=
  PyErr ["ValueError"; "Exception"; "BaseException"] msg.
Definition AttributeError (msg : string) : exn :=
  PyErr ["AttributeError"; "Exception"; "BaseException"] msg.
Definition ModuleNotFoundError (msg : string) : exn :=
  PyErr ["ModuleNotFoundError"; "ImportError"; "Exception"; "BaseException"] msg.
Definition KeyError (msg : string) : exn :=
  PyErr ["KeyError"; "LookupError"; "Exception"; "BaseException"] msg.
Definition IndexError (msg : string) : exn :=
  PyErr ["IndexError"; "LookupError"; "Exception"; "BaseException"] msg.
Definition CancelledError : exn :=
  PyErr ["CancelledError"; "BaseException"] "".
Definition GeneratorExit : exn :=
  PyErr ["GeneratorExit"; "BaseException"] "".

(** Truth value of an [Optional[str]]: [None] and [""] are false. *)
Definition truthy_str (s : option string) : bool :=
  match s with
  | Some (String _ _) => true
  | _ => false
  end.

(** Truth value of a [bytes] object or a list: empty is false. *)
Definition truthy_seq {A : Type} (l : list A) : bool :=
  match l with
  | [] => false
  | _ :: _ => true
  end.

(** [x in l] for a list of strings; [None] equals no string. *)
Definition contains (x : option string) (l : list string) : bool :=
  match x with
  | None => false
  | Some s => existsb (String.eqb s) l
  end.

(** [l[0]] *)
Definition index0 {A : Type} (l : list A) : exn + A :=
  match l with
  | [] => inl (IndexError "list index out of range")
  | x :: _ => inr x
  end.

(** [str(x)] inside an f-string, for a value that is a [str] or [None]. *)
Definition fmt (x : option string) : string :=
  match x with
  | None => "None"
  | Some s => s
  end.

(** [str.isspace] on one character of a header value.  Header values are
    decoded as latin-1, so a character is a code point below 256. *)
Definition isspace (c : ascii) : bool :=
  let n := N_of_ascii c in
  ((9 <=? n) && (n <=? 13) || (28 <=? n) && (n <=? 32)
   || (n =? 133) || (n =? 160))%N.

Fixpoint lstrip (s : string) : string :=
  match s with
  | EmptyString => EmptyString
  | String c s' => if isspace c then lstrip s' else s
  end.

Fixpoint rstrip (s : string) : string :=
  match s with
  | EmptyString => EmptyString
  | String c s' =>
      match rstrip s' with
      | EmptyString => if isspace c then EmptyString else String c EmptyString
      | r => String c r
      end
  end.

(** [s.strip()] *)
Definition strip (s : string) : string := rstrip (lstrip s).

(** [s.split(sep)] for a one-character separator: never the empty list. *)
Fixpoint split (sep : ascii) (s : string) : list string :=
  match s with
  | EmptyString => [EmptyString]
  | String c s' =>
      if Ascii.eqb c sep then EmptyString :: split sep s'
      else match split sep s' with
           | [] => [String c EmptyString]
           | w :: ws => String c w :: ws
           end
  end.

(** [sep.join(l)] *)
Fixpoint join (sep : string) (l : list string) : string :=
  match l with
  | [] => EmptyString
  | [x] => x
  | x :: rest => x +:+ sep +:+ join sep rest
  end.

End Py.
Export Py.

(** ** Objects and collaborators outside the module *)

(** The opaque object types: a parsed JSON document, the [xw.Book] handle
    and the provider-specific data a principal carries. *)
Class Objects : Type := {
  json : Type;
  book : Type;
  extension : Type;
}.

(** Modelled from the spec: [models.User] is imported but not defined in
    the sources; the principal has an identifier, a display name, role
    labels, a nullable origin address and provider-specific data. *)
Record User `{Objects} : Type := mkUser {
  id : string;
  name : string;
  roles : list string;
  ip_address : option string;
  user_data : extension;
}.

(** [current_user.ip_address = ip] *)
Definition set_ip_address `{Objects} (u : User) (ip : option string) : User :=
  {| id := id u; name := name u; roles := roles u;
     ip_address := ip; user_data := user_data u |}.

(** A provider module [app.auth.<name>]: it may or may not define
    [validate_token]. *)
Record Module `{Objects} : Type := mkModule {
  validate_token : option (string -> exn + User);
}.

(** [request.client] *)
Record Address : Type := mkAddress {
  host : string;
  port : Z;
}.

(** What the dependencies read of a [Request].  Header names are the
    lower-case names the server hands over, values are latin-1 text. *)
Record Request : Type := mkRequest {
  body : list byte;
  headers : list (string * string);
  client : option Address;
}.

(** [app.config.settings] *)
Record Settings : Type := mkSettings {
  auth_providers : list string;
  auth_required_roles : list string;
}.

(** The libraries and the deployment the module calls into. *)
Class Externals `{Objects} : Type := {
  (** [json.loads] *)
  json_loads : string -> exn + json;
  (** [bytes.decode("utf-8")] *)
  decode_utf8 : list byte -> exn + string;
  (** [xw.Book(json=...)] and [book.close()] *)
  xw_Book : json -> exn + book;
  xw_close : book -> option exn;
  (** [importlib.import_module] *)
  import_module : string -> exn + Module;
  (** [models.User.is_authorized], the custom authorization hook *)
  is_authorized : User -> bool;
  (** defaults of the [models.User] fields the constructor call omits *)
  default_roles : list string;
  default_ip_address : option string;
  default_user_data : extension;
  (** the order in which a Python [set] of strings is iterated *)
  set_iter : gset string -> list string;
  set_iter_perm : forall X : gset string, set_iter X ≡ₚ elements X;
}.

(** [fastapi.status] *)
Definition HTTP_400_BAD_REQUEST : Z := 400.
Definition HTTP_403_FORBIDDEN : Z := 403.
Definition HTTP_500_INTERNAL_SERVER_ERROR : Z := 500.

(** ** Effects: a trace of calls out of the module, and exceptions *)

Inductive event `{Objects} : Type :=
| ReadBody                                        (* await request.body() *)
| BookOpen (book_data : json)                     (* xw.Book(json=book_data) *)
| BookClose (b : book)                            (* book.close() *)
| LogInfo (msg : string)                          (* logger.info *)
| LogException (msg : string) (exc : exn)         (* logger.exception *)
| ImportModule (modname : string)                 (* importlib.import_module *)
| ValidateToken (modname : string) (token : string) (* module.validate_token *)
| HasRequiredRoles (required : list string)       (* user.has_required_roles *)
| IsAuthorized.                                   (* user.is_authorized *)

Definition M `{Objects} (A : Type) : Type := list event * (exn + A).

Definition trace `{Objects} {A : Type} (m : M A) : list event := fst m.
Definition outcome `{Objects} {A : Type} (m : M A) : exn + A := snd m.

Definition ret `{Objects} {A : Type} (a : A) : M A := ([], inr a).
Definition raise `{Objects} {A : Type} (e : exn) : M A := ([], inl e).
Definition lift `{Objects} {A : Type} (r : exn + A) : M A := ([], r).
Definition emit `{Objects} (ev : event) : M unit := ([ev], inr tt).

Definition bind `{Objects} {A B : Type} (m : M A) (k : A -> M B) : M B :=
  match m with
  | (t, inl e) => (t, inl e)
  | (t, inr a) => let (t', r) := k a in ((t ++ t')%list, r)
  end.

#[global] Instance M_ret `{Objects} : MRet M := @ret _.
#[global] Instance M_bind `{Objects} : MBind M := fun A B k m => bind m k.

(** [try: body except (classes): handler] *)
Definition try_except `{Objects} {A : Type}
    (body : M A) (caught : exn -> bool) (handler : exn -> M A) : M A :=
  match body with
  | (t, inl e) =>
      if caught e then let (t', r) := handler e in ((t ++ t')%list, r)
      else (t, inl e)
  | (t, inr a) => (t, inr a)
  end.

(** [try: body finally: final]: the final block always runs; if it raises,
    its exception replaces the outcome of the body. *)
Definition try_finally `{Objects} {A : Type} (body : M A) (final : M unit) : M A :=
  let (t, r) := body in
  let (t', r') := final in
  ((t ++ t')%list, match r' with inl e' => inl e' | inr _ => r end).

(** ** The dependencies *)

Section Dependencies.
Context `{Externals}.

(** [await request.body()], for a request whose stream the framework has
    not consumed: the read returns the bytes of the body. *)
Definition request_body (request : Request) : M (list byte) :=
  emit ReadBody ;; ret (body request).

(** [parse_book_input], lines 18-31.  A form field that is [None] or
    [""] is falsy and sends control to the body. *)
Definition parse_book_input
    (request : Request) (form_data : option string) : M json :=
  match form_data with
  | Some (String _ _ as form_data) => lift (json_loads form_data)
  | _ =>
      body_bytes ← request_body request;
      if truthy_seq body_bytes then
        body_str ← lift (decode_utf8 body_bytes);
        lift (json_loads body_str)
      else
        raise (HTTPException 400 "No book data provided")
  end.

(** [get_book], lines 34-40, is an async generator with one [yield]
    inside [try ... finally].  It is run in two steps: [get_book_start]
    runs it up to the [yield] and hands out the book; [get_book_resume]
    resumes it at the [yield]. *)
Definition get_book_start (book_data : json) : M book :=
  emit (BookOpen book_data) ;; lift (xw_Book book_data).

(** How the caller resumes the generator at its [yield]: [Send] when the
    handler is done ([anext]), [Throw e] when the handler raised [e] or
    the request was cancelled ([athrow], with [CancelledError] or
    [GeneratorExit] for a cancellation or [aclose]).  A [StopIteration] or
    [StopAsyncIteration] that leaves an async generator is replaced by a
    [RuntimeError]; that replacement is not part of this model, which
    follows the exception up to the end of the [finally] block. *)
Inductive signal : Type :=
| Send
| Throw (e : exn).

(** The [yield] expression, seen from inside the generator. *)
Definition yield_ (s : signal) : M unit :=
  match s with
  | Send => ret tt
  | Throw e => raise e
  end.

(** [book.close()] *)
Definition book_close (b : book) : M unit :=
  emit (BookClose b) ;;
  match xw_close b with
  | Some e => raise e
  | None => ret tt
  end.

Definition get_book_resume (b : book) (s : signal) : M unit :=
  try_finally (yield_ s) (book_close b).

(** The whole life of the generator for one request. *)
Definition get_book (book_data : json) (handler : book -> signal) : M unit :=
  b ← get_book_start book_data;
  get_book_resume b (handler b).

(** [User(id=..., name=...)] at line 52.  The name is bound at line 111 to
    the annotated alias of [models.User]; calling the alias constructs a
    [models.User], with the defaults of the fields left out. *)
Definition User_new (id name : string) : User :=
  {| id := id; name := name; roles := default_roles;
     ip_address := default_ip_address; user_data := default_user_data |}.

(** Lines 53-66 of [authenticate]: the [if]/[elif] chain that binds
    [provider] or raises.  [provider] is a [str], or whatever the header
    parameter held. *)
Definition select_provider
    (settings : Settings) (auth_provider : option string) : exn + option string :=
  if (length (auth_providers settings) =? 1)%nat then
    match index0 (auth_providers settings) with
    | inl e => inl e
    | inr p => inr (Some p)
    end
  else if (1 <? length (auth_providers settings))%nat
          && negb (truthy_str auth_provider) then
    inl (HTTPException HTTP_400_BAD_REQUEST
           "With multiple auth providers, you need to provide the Auth-Provider header.")
  else if negb (contains auth_provider (auth_providers settings)) then
    inl (HTTPException HTTP_400_BAD_REQUEST
           "Auth-Provider header wasn't found in XLWINGS_AUTH_PROVIDERS setting.")
  else inr auth_provider.

(** [module.validate_token]: attribute lookup on the module. *)
Definition getattr_validate_token
    (modname : string) (module : Module) : exn + (string -> exn + User) :=
  match validate_token module with
  | Some f => inr f
  | None =>
      inl (AttributeError
             ("module '" +:+ modname +:+ "' has no attribute 'validate_token'"))
  end.

(** Lines 72-73, the body of the [try]. *)
Definition load_and_validate
    (provider : option string) (token_string : string) : M User :=
  let modname := "app.auth." +:+ fmt provider in
  module ← (emit (ImportModule modname) ;; lift (import_module modname));
  validate ← lift (getattr_validate_token modname module);
  emit (ValidateToken modname token_string) ;; lift (validate token_string).

(** [except (AttributeError, ModuleNotFoundError)] *)
Definition implementation_missing (e : exn) : bool :=
  isinstance e "AttributeError" || isinstance e "ModuleNotFoundError".

(** Lines 71-79: the [try]/[except] around the provider call. *)
Definition dispatch (provider : option string) (token_string : string) : M User :=
  try_except (load_and_validate provider token_string)
    implementation_missing
    (fun e =>
       let msg := "Auth provider '" +:+ fmt provider +:+ "' implementation missing." in
       emit (LogException msg e) ;;
       raise (HTTPException HTTP_500_INTERNAL_SERVER_ERROR msg)).

(** [authenticate], lines 47-80. *)
Definition authenticate
    (settings : Settings) (token_string : string) (auth_provider : option string)
    : M User :=
  if negb (truthy_seq (auth_providers settings)) then
    ret (User_new "n/a" "Anonymous")
  else
    provider ← lift (select_provider settings auth_provider);
    emit (LogInfo ("Using auth provider " +:+ fmt provider)) ;;
    if negb (contains provider (auth_providers settings)) then
      raise (ValueError ("Unsupported authentication provider: " +:+ fmt provider))
    else
      dispatch provider token_string.

(** [authenticate] with the re-check of lines 69-70 taken out. *)
Definition authenticate_unchecked
    (settings : Settings) (token_string : string) (auth_provider : option string)
    : M User :=
  if negb (truthy_seq (auth_providers settings)) then
    ret (User_new "n/a" "Anonymous")
  else
    provider ← lift (select_provider settings auth_provider);
    emit (LogInfo ("Using auth provider " +:+ fmt provider)) ;;
    dispatch provider token_string.

(** [key in request.headers] and [request.headers[key]]: the first header
    of that name. *)
Definition headers_contains (hs : list (string * string)) (key : string) : bool :=
  existsb (fun kv => String.eqb (fst kv) key) hs.

Definition headers_getitem (hs : list (string * string)) (key : string) : exn + string :=
  match find (fun kv => String.eqb (fst kv) key) hs with
  | Some kv => inr (snd kv)
  | None => inl (KeyError key)
  end.

(** Lines 85-88 of [get_user]. *)
Definition extract_ip (request : Request) : exn + option string :=
  if headers_contains (headers request) "x-forwarded-for" then
    match headers_getitem (headers request) "x-forwarded-for" with
    | inl e => inl e
    | inr value =>
        match index0 (split "," value) with
        | inl e => inl e
        | inr first => inr (Some (strip first))
        end
    end
  else
    inr (match client request with
         | Some a => Some (host a)
         | None => None
         end).

(** [set(required).difference(user_roles)], line 100. *)
Definition set_difference (required user_roles : list string) : gset string :=
  list_to_set required ∖ list_to_set user_roles.

(** Modelled from the spec: [models.User.has_required_roles] is not in
    the sources.  The spec computes the missing roles as required roles
    minus the principal's roles and fails when that set is non-empty, so
    the check holds exactly when the difference is empty. *)
Definition has_required_roles (user : User) (required : list string) : bool :=
  bool_decide (set_difference required (roles user) = ∅).

(** [get_user], lines 83-108.  The first component is the principal
    object as the call leaves it, the second what the call does and
    returns. *)
Definition get_user
    (settings : Settings) (request : Request) (current_user : User)
    : User * M User :=
  match extract_ip request with
  | inl e => (current_user, raise e)
  | inr ip_address =>
      let current_user := set_ip_address current_user ip_address in
      (current_user,
       if negb (truthy_seq (auth_providers settings)) then ret current_user
       else
         ok ← (emit (HasRequiredRoles (auth_required_roles settings)) ;;
               ret (has_required_roles current_user (auth_required_roles settings)));
         if negb ok then
           raise (HTTPException HTTP_403_FORBIDDEN
                    ("Auth error: Missing roles for " +:+ name current_user +:+ ": "
                     +:+ join ", "
                           (set_iter (set_difference (auth_required_roles settings)
                                                     (roles current_user)))))
         else
           authorized ← (emit IsAuthorized ;; ret (is_authorized current_user));
           if negb authorized then
             raise (HTTPException HTTP_403_FORBIDDEN "Auth error: Not authorized.")
           else ret current_user)
  end.

End Dependencies.

(** ** The dependencies as the routes get them *)

Section Composition.
Context `{Externals}.

(** [Book = Annotated[xw.Book, Depends(get_book)]], line 43, with
    [book_data: dict = Depends(parse_book_input)], line 34: the framework
    runs [parse_book_input] and enters [get_book] with its result; when
    it raises, [get_book] is not entered. *)
Definition Book_dependency
    (request : Request) (form_data : option string) (handler : book -> signal)
    : M unit :=
  book_data ← parse_book_input request form_data;
  get_book book_data handler.

(** [User = Annotated[models.User, Depends(get_user)]], line 111, with
    [current_user: models.User = Depends(authenticate)], line 83. *)
Definition User_dependency
    (settings : Settings) (request : Request)
    (token_string : string) (auth_provider : option string) : M User :=
  current_user ← authenticate settings token_string auth_provider;
  snd (get_user settings request current_user).

End Composition.

(** ** A concrete deployment, to run the dependencies on *)

Module Sample.

(** JSON documents are kept as their text, a book handle is a number and
    a principal carries no further data. *)
#[export] Instance objects : Objects :=
  {| json := string; book := nat; extension := unit |}.

Definition alice : User :=
  {| id := "u1"; name := "Alice"; roles := ["viewer"];
     ip_address := None; user_data := tt |}.

(** A provider that knows one token. *)
Definition okta : Module :=
  {| validate_token := Some (fun token =>
       if String.eqb token "Bearer good" then inr alice
       else inl (HTTPException 401 "Invalid token")) |}.

(** A provider whose [validate_token] trips over a missing attribute of
    one of its own objects. *)
Definition azuread : Module :=
  {| validate_token := Some (fun _ =>
       inl (AttributeError "'NoneType' object has no attribute 'get'")) |}.

(** A provider module without [validate_token]. *)
Definition stub : Module := {| validate_token := None |}.

Definition modules (modname : string) : exn + Module :=
  if String.eqb modname "app.auth.okta" then inr okta
  else if String.eqb modname "app.auth.azuread" then inr azuread
  else if String.eqb modname "app.auth.stub" then inr stub
  else inl (ModuleNotFoundError ("No module named '" +:+ modname +:+ "'")).

(** [close] says which books fail to close. *)
Definition world (close : nat -> option exn) : Externals :=
  {| json_loads := fun s =>
       match s with
       | String "{" _ => inr s
       | _ => inl (PyErr ["JSONDecodeError"; "ValueError"; "Exception"; "BaseException"]
                     "Expecting value")
       end;
     decode_utf8 := fun bs => inr (string_of_list_byte bs);
     xw_Book := fun doc => inr (String.length doc);
     xw_close := close;
     import_module := modules;
     is_authorized := fun _ => true;
     default_roles := [];
     default_ip_address := None;
     default_user_data := tt;
     set_iter := elements;
     set_iter_perm := fun X => reflexivity (elements X) |}.

Definition closes_fine : Externals := world (fun _ => None).


Definition no_auth : Settings :=
  {| auth_providers := []; auth_required_roles := ["admin"] |}.
Definition one_provider : Settings :=
  {| auth_providers := ["okta"]; auth_required_roles := ["editor"; "viewer"] |}.
Definition two_providers : Settings :=
  {| auth_providers := ["okta"; "azuread"]; auth_required_roles := [] |}.

Definition empty_request : Request :=
  {| body := []; headers := []; client := None |}.

Definition proxied_request : Request :=
  {| body := list_byte_of_string "{}";
     headers := [("content-type", "application/json");
                 ("x-forwarded-for", " 203.0.113.7 , 10.0.0.1")];
     client := Some {| host := "10.0.0.1"; port := 40000 |} |}.

End Sample.

(** Deployments in which a collaborator refuses. *)
Module Faulty.


(** The custom authorization hook lets nobody in. *)
Definition nobody_authorized : @Externals Sample.objects :=
  {| json_loads := @json_loads _ Sample.closes_fine;
     decode_utf8 := @decode_utf8 _ Sample.closes_fine;
     xw_Book := @xw_Book _ Sample.closes_fine;
     xw_close := fun _ => None;
     import_module := Sample.modules;
     is_authorized := fun _ => false;
     default_roles := [];
     default_ip_address := None;
     default_user_data := tt;
     set_iter := elements;
     set_iter_perm := fun X => reflexivity (elements X) |}.

(** A request whose forwarded-for header is there but blank. *)
Definition blank_forwarded_request : Request :=
  {| body := [];
     headers := [("x-forwarded-for", "  ,10.0.0.1")];
     client := Some {| host := "10.0.0.1"; port := 40000 |} |}.

End Faulty.

(** ** What a trace says *)

Section Observations.
Context `{Objects}.

(** How often the request body was read. *)
Definition body_reads (t : list event) : nat :=
  length (List.filter (fun ev => match ev with ReadBody => true | _ => false end) t).

(** The documents a book was opened from, and the books closed, in order. *)
Definition opened (t : list event) : list json :=
  omap (fun ev => match ev with BookOpen d => Some d | _ => None end) t.

Definition released (t : list event) : list book :=
  omap (fun ev => match ev with BookClose b => Some b | _ => None end) t.

(** A trace without book events. *)
Definition book_free (t : list event) : Prop :=
  opened t = [] /\ released t = [].


(** The provider modules imported or called. *)
Definition invoked (t : list event) : list string :=
  omap (fun ev => match ev with
                  | ImportModule m | ValidateToken m _ => Some m
                  | _ => None
                  end) t.

(** The calls of [has_required_roles] and of [is_authorized]. *)
Definition role_checks (t : list event) : nat :=
  length (List.filter (fun ev => match ev with HasRequiredRoles _ => true | _ => false end) t).

Definition authorization_checks (t : list event) : nat :=
  length (List.filter (fun ev => match ev with IsAuthorized => true | _ => false end) t).

End Observations.

(** The errors of the spec's taxonomy, as the code raises them. *)
Definition MissingInput : exn :=
  HTTPException 400 "No book data provided".
Definition AmbiguousProvider : exn :=
  HTTPException 400
    "With multiple auth providers, you need to provide the Auth-Provider header.".
Definition UnknownProvider : exn :=
  HTTPException 400
    "Auth-Provider header wasn't found in XLWINGS_AUTH_PROVIDERS setting.".
Definition ProviderImplementationMissing (provider : string) : exn :=
  HTTPException 500 ("Auth provider '" +:+ provider +:+ "' implementation missing.").
Definition InsufficientRole (display_name : string) (missing : list string) : exn :=
  HTTPException 403
    ("Auth error: Missing roles for " +:+ display_name +:+ ": " +:+ join ", " missing).
Definition NotAuthorized : exn :=
  HTTPException 403 "Auth error: Not authorized.".

(** ** Readings of the spec that the code is compared with *)

Section Readings.
Context `{Externals}.

(** The provider [p] is selected: the chain of lines 53-66 binds it, its
    module is imported, and no other module is imported or called. *)
Definition selects
    (settings : Settings) (token : string) (hint : option string) (p : string) : Prop :=
  select_provider settings hint = inr (Some p)
  /\ ImportModule ("app.auth." +:+ p) ∈ trace (authenticate settings token hint)
  /\ Forall (eq ("app.auth." +:+ p)) (invoked (trace (authenticate settings token hint))).

(** Resolution fails with [e] before anything is logged or invoked. *)
Definition rejects
    (settings : Settings) (token : string) (hint : option string) (e : exn) : Prop :=
  authenticate settings token hint = ([], inl e).

(** The resolution policy with an absent hint read as [None] only. *)
Definition provider_resolution_as_stated
    (settings : Settings) (token : string) (hint : option string) : Prop :=
  auth_providers settings <> [] ->
  (forall p, auth_providers settings = [p] -> selects settings token hint p)
  /\ ((1 < length (auth_providers settings))%nat ->
      (hint = None -> rejects settings token hint AmbiguousProvider)
      /\ (forall h, hint = Some h -> h ∉ auth_providers settings ->
            rejects settings token hint UnknownProvider)
      /\ (forall h, hint = Some h -> h ∈ auth_providers settings ->
            selects settings token hint h)).






(** Missing roles fail the request whatever the provider list is. *)
Definition insufficient_role_as_stated
    (settings : Settings) (request : Request) (user : User) : Prop :=
  ~ (auth_required_roles settings ⊆ roles user) ->
  exists missing, NoDup missing
    /\ (forall r, r ∈ missing <-> r ∈ auth_required_roles settings /\ r ∉ roles user)
    /\ outcome (snd (get_user settings request user))
       = inl (InsufficientRole (name user) missing).

(** A string of white space only. *)
Fixpoint all_space (s : string) : bool :=
  match s with
  | EmptyString => true
  | String c s' => isspace c && all_space s'
  end.

(** The spec's wording, to compare [split] and [index0] with: the first
    comma-separated entry of a header value is what stands before its
    first comma. *)
Fixpoint first_entry (value : string) : string :=
  match value with
  | EmptyString => EmptyString
  | String c rest => if Ascii.eqb c "," then EmptyString else String c (first_entry rest)
  end.

End Readings.

(** The modules imported, and the calls of [validate_token] with the
    module and the token of each. *)
Definition imports `{Objects} (t : list event) : list string :=
  omap (fun ev => match ev with ImportModule m => Some m | _ => None end) t.

Definition validations `{Objects} (t : list event) : list (string * string) :=
  omap (fun ev => match ev with ValidateToken m tok => Some (m, tok) | _ => None end) t.

(** Unfolds the monad and the trace functions, so that a run of a
    dependency on given inputs reduces to its trace and outcome. *)
Ltac run_monad :=
  unfold mbind, M_bind, mret, M_ret, bind, ret, raise, lift, emit,
    try_except, try_finally, trace, outcome in *;
  simpl in *.

(** ** Input Normalizer *)

Section InputNormalizer.
Context `{Externals}.


End InputNormalizer.

(** ** Resource Binder *)

Section ResourceBinder.
Context `{Externals}.

Lemma get_book_start_inr (book_data : json) (b : book) :
  outcome (get_book_start book_data) = inr b -> xw_Book book_data = inr b.
Proof. unfold get_book_start. run_monad. by destruct (xw_Book book_data). Qed.

(** If the book cannot be opened there is nothing to release. *)
Lemma get_book_not_acquired (book_data : json) (handler : book -> signal) (e : exn) :
  xw_Book book_data = inl e ->
  get_book book_data handler = ([BookOpen book_data], inl e).
Proof. intros Hopen. unfold get_book, get_book_start. run_monad. by rewrite Hopen. Qed.

(** C1: once [get_book] has acquired a book, [book.close] is called on
    it exactly once however the generator is resumed at its [yield]: by
    [Send] after the handler completed, or by [Throw e] for an exception
    of the handler or a cancellation. *)
Theorem get_book_releases_once (book_data : json) (handler : book -> signal) (b : book) :
  outcome (get_book_start book_data) = inr b ->
  released (trace (get_book book_data handler)) = [b]
  /\ opened (trace (get_book book_data handler)) = [book_data].
Proof.
  intros Hacq%get_book_start_inr.
  unfold get_book, get_book_start, get_book_resume, book_close, yield_.
  run_monad. rewrite Hacq. simpl.
  by destruct (handler b), (xw_close b).
Qed.


End ResourceBinder.

(** ** Provider Resolver and Token Validator *)

Section ProviderResolver.
Context `{Externals}.

Lemma contains_Some (s : string) (l : list string) :
  contains (Some s) l = true <-> s ∈ l.
Proof.
  simpl. rewrite existsb_exists. split.
  - intros (x & Hin & ->%String.eqb_eq). by apply list_elem_of_In.
  - intros Hin. exists s. split; [by apply list_elem_of_In | apply String.eqb_refl].
Qed.

(** Whatever the chain of lines 53-66 binds is a string of the
    configured list. *)
Lemma select_provider_inr (settings : Settings) (hint provider : option string) :
  select_provider settings hint = inr provider ->
  contains provider (auth_providers settings) = true
  /\ exists p, provider = Some p /\ p ∈ auth_providers settings.
Proof.
  unfold select_provider.
  destruct (auth_providers settings) as [|p1 [|p2 ps]] eqn:Hps; simpl.
  - destruct (contains hint []) eqn:Hc; [|done].
    by destruct hint.
  - intros [= <-]. simpl. rewrite String.eqb_refl. split; [done|].
    exists p1. split; [done | apply list_elem_of_here].
  - destruct (truthy_str hint) eqn:Hhint; simpl; [|done].
    destruct (contains hint (p1 :: p2 :: ps)) eqn:Hc; simpl; [|done].
    intros [= <-]. split; [done|].
    destruct hint as [h|]; [|done].
    exists h. split; [done | by apply contains_Some].
Qed.

(** What [authenticate] does once a provider is bound. *)
Lemma authenticate_selected
    (settings : Settings) (token : string) (hint : option string) (p : string) :
  select_provider settings hint = inr (Some p) ->
  authenticate settings token hint
  = (LogInfo ("Using auth provider " +:+ p) :: trace (dispatch (Some p) token),
     outcome (dispatch (Some p) token)).
Proof.
  intros Hsel. destruct (select_provider_inr _ _ _ Hsel) as [Hc _].
  unfold authenticate. rewrite Hsel.
  destruct (auth_providers settings) as [|p1 ps] eqn:Hps; [done|].
  run_monad. rewrite Hc. simpl. by destruct (dispatch (Some p) token).
Qed.

Lemma authenticate_rejected
    (settings : Settings) (token : string) (hint : option string) (e : exn) :
  auth_providers settings <> [] ->
  select_provider settings hint = inl e ->
  authenticate settings token hint = ([], inl e).
Proof.
  intros Hne Hsel. unfold authenticate. rewrite Hsel.
  by destruct (auth_providers settings).
Qed.

(** The module of the provider is imported first, and is the only one
    imported or called. *)
Lemma dispatch_invoked (provider : option string) (token : string) :
  ImportModule ("app.auth." +:+ fmt provider) ∈ trace (dispatch provider token)
  /\ Forall (eq ("app.auth." +:+ fmt provider)) (invoked (trace (dispatch provider token))).
Proof.
  unfold dispatch, load_and_validate, getattr_validate_token. run_monad.
  destruct (import_module _) as [e|m]; simpl.
  - destruct (implementation_missing e); simpl;
      (split; [apply list_elem_of_here | repeat constructor]).
  - destruct (validate_token m) as [validate|]; simpl.
    + destruct (validate token) as [e|u]; simpl;
        [destruct (implementation_missing e); simpl|];
        (split; [apply list_elem_of_here | repeat constructor]).
    + split; [apply list_elem_of_here | repeat constructor].
Qed.

Lemma selects_intro
    (settings : Settings) (token : string) (hint : option string) (p : string) :
  select_provider settings hint = inr (Some p) -> selects settings token hint p.
Proof.
  intros Hsel. unfold selects. rewrite (authenticate_selected _ _ _ _ Hsel).
  destruct (dispatch_invoked (Some p) token) as [Himp Hall].
  split_and!; [done | by apply list_elem_of_further | done].
Qed.

Lemma authenticate_unchecked_eq
    (settings : Settings) (token : string) (hint : option string) :
  authenticate settings token hint = authenticate_unchecked settings token hint.
Proof.
  unfold authenticate, authenticate_unchecked.
  destruct (truthy_seq (auth_providers settings)); simpl; [|done].
  destruct (select_provider settings hint) as [e|provider] eqn:Hsel; [done|].
  apply select_provider_inr in Hsel as [Hc _].
  run_monad. by rewrite Hc.
Qed.

(** C10: the re-check of lines 69-70 never fires.  Whenever control
    reaches it the bound provider is a member of the configured list, so
    [authenticate] behaves as it does with the re-check taken out. *)
Theorem recheck_unreachable
    (settings : Settings) (token : string) (hint : option string) :
  (forall provider, select_provider settings hint = inr provider ->
     contains provider (auth_providers settings) = true)
  /\ authenticate settings token hint = authenticate_unchecked settings token hint.
Proof.
  split.
  - intros provider Hsel. by apply select_provider_inr in Hsel as [? _].
  - apply authenticate_unchecked_eq.
Qed.

Lemma select_provider_single (p : string) (settings : Settings) (hint : option string) :
  auth_providers settings = [p] -> select_provider settings hint = inr (Some p).
Proof. intros Hps. unfold select_provider. by rewrite Hps. Qed.

Lemma select_provider_no_hint (settings : Settings) (hint : option string) :
  (1 < length (auth_providers settings))%nat ->
  truthy_str hint = false ->
  select_provider settings hint = inl AmbiguousProvider.
Proof.
  intros Hlen Hhint. unfold select_provider. rewrite Hhint.
  destruct (auth_providers settings) as [|p1 [|p2 ps]]; simpl in *; done || lia.
Qed.

Lemma select_provider_hint (settings : Settings) (h : string) :
  (1 < length (auth_providers settings))%nat ->
  h <> "" ->
  select_provider settings (Some h)
  = if contains (Some h) (auth_providers settings) then inr (Some h)
    else inl UnknownProvider.
Proof.
  intros Hlen Hh. unfold select_provider.
  assert (truthy_str (Some h) = true) as -> by by destruct h.
  destruct (auth_providers settings) as [|p1 [|p2 ps]]; [simpl in *; lia ..|].
  change (length (p1 :: p2 :: ps) =? 1)%nat with false.
  change (1 <? length (p1 :: p2 :: ps))%nat with true.
  cbv beta iota. simpl negb at 1. simpl andb.
  by destruct (contains (Some h) (p1 :: p2 :: ps)).
Qed.

(** C2, as the code has it: with one configured provider that provider
    is selected whatever the hint; with several, a hint that is absent or
    empty is rejected with [AmbiguousProvider], a non-empty hint that is
    not configured with [UnknownProvider], both HTTP 400 and before any
    provider is touched; a non-empty configured hint selects that
    provider, and the module of no other provider is imported or
    called. *)
Theorem provider_resolution
    (settings : Settings) (token : string) (hint : option string) :
  auth_providers settings <> [] ->
  (forall p, auth_providers settings = [p] -> selects settings token hint p)
  /\ ((1 < length (auth_providers settings))%nat ->
      (hint = None \/ hint = Some "" -> rejects settings token hint AmbiguousProvider)
      /\ (forall h, hint = Some h -> h <> "" -> h ∉ auth_providers settings ->
            rejects settings token hint UnknownProvider)
      /\ (forall h, hint = Some h -> h <> "" -> h ∈ auth_providers settings ->
            selects settings token hint h)).
Proof.
  intros Hne. split; [|intros Hlen; split_and!].
  - intros p Hps. by apply selects_intro, select_provider_single.
  - intros Hhint. apply authenticate_rejected; [done|].
    apply select_provider_no_hint; [done|]. by destruct Hhint as [-> | ->].
  - intros h -> Hh Hnotin. apply authenticate_rejected; [done|].
    rewrite select_provider_hint by done.
    destruct (contains (Some h) _) eqn:Hc; [|done].
    by apply contains_Some in Hc.
  - intros h -> Hh Hin. apply selects_intro.
    rewrite select_provider_hint by done.
    by apply contains_Some in Hin as ->.
Qed.


End ProviderResolver.

(** ** Principal Enricher and Access Controller *)

Section AccessController.
Context `{Externals}.

(** [split] and [join] undo each other, and [strip] takes white space, and
    nothing else, off both ends. *)
Lemma split_nonempty (sep : ascii) (s : string) : split sep s <> [].
Proof.
  destruct s as [|c s]; simpl; [done|].
  destruct (Ascii.eqb c sep); [done|]. by destruct (split sep s).
Qed.

Lemma join_split (sep : ascii) (s : string) :
  join (String sep "") (split sep s) = s.
Proof.
  induction s as [|c s IH]; simpl; [done|].
  pose proof (split_nonempty sep s) as Hne.
  destruct (Ascii.eqb c sep) eqn:Hc.
  - apply Ascii.eqb_eq in Hc as ->.
    destruct (split sep s) as [|w ws]; [done|].
    change (join (String sep "") ("" :: w :: ws))
      with (String sep (join (String sep "") (w :: ws))).
    by rewrite IH.
  - destruct (split sep s) as [|w [|w' ws]]; [done | simpl in *; congruence |].
    change (join (String sep "") (String c w :: w' :: ws))
      with (String c (join (String sep "") (w :: w' :: ws))).
    by rewrite IH.
Qed.

Lemma lstrip_spec (s : string) :
  exists ws, s = ws +:+ lstrip s /\ all_space ws = true
    /\ forall c t, lstrip s = String c t -> isspace c = false.
Proof.
  induction s as [|c s (ws & Hs & Hws & Hhead)]; simpl.
  - by exists "".
  - destruct (isspace c) eqn:Hc.
    + exists (String c ws). split_and!; [|by simpl; rewrite Hc|done].
      rewrite Hs at 1. reflexivity.
    + exists "". split_and!; [done | done | by intros ? ? [= <- _]].
Qed.

Lemma rstrip_spec (s : string) :
  exists ws, s = rstrip s +:+ ws /\ all_space ws = true
    /\ forall t c, rstrip s = t +:+ String c "" -> isspace c = false.
Proof.
  induction s as [|c s (ws & Hs & Hws & Hlast)]; simpl.
  - exists "". split_and!; [done | done |]. intros [|? ?] ?; discriminate.
  - destruct (rstrip s) as [|c' r] eqn:Hr.
    + destruct (isspace c) eqn:Hc.
      * exists (String c ws). split_and!.
        -- rewrite Hs at 1. reflexivity.
        -- by simpl; rewrite Hc.
        -- intros [|? ?] ?; discriminate.
      * exists ws. split_and!; [by rewrite Hs at 1 | done |].
        intros [|? [|? ?]] c0; [by intros [= <-] | discriminate..].
    + exists ws. split_and!; [by rewrite Hs at 1 | done |].
      intros [|c1 t] c0.
      * discriminate.
      * intros [= <- Heq]. by apply (Hlast t c0).
Qed.

Lemma rstrip_head (s : string) (c : ascii) (r : string) :
  rstrip s = String c r -> exists s', s = String c s'.
Proof.
  destruct s as [|c0 s]; simpl; [done|].
  destruct (rstrip s); [destruct (isspace c0)|]; intros [= <- _]; by eexists.
Qed.

Lemma strip_spec (s : string) :
  exists l r, s = l +:+ strip s +:+ r
    /\ all_space l = true /\ all_space r = true
    /\ (forall c t, strip s = String c t -> isspace c = false)
    /\ (forall t c, strip s = t +:+ String c "" -> isspace c = false).
Proof.
  unfold strip.
  destruct (lstrip_spec s) as (l & Hl & Hlws & Hhead).
  destruct (rstrip_spec (lstrip s)) as (r & Hr & Hrws & Hlast).
  exists l, r. split_and!; [| done | done | | done].
  - rewrite Hl at 1. by rewrite Hr at 1.
  - intros c t Hstrip. apply rstrip_head in Hstrip as [s' Hs']. by apply (Hhead c s').
Qed.

(** [value.split(",")[0]] is the text before the first comma. *)
Lemma split_first_entry (value : string) :
  exists rest, split "," value = first_entry value :: rest.
Proof.
  induction value as [|c value [rest IH]]; simpl; [by eexists|].
  destruct (Ascii.eqb c ","); [by eexists|].
  rewrite IH. by eexists.
Qed.

Lemma first_entry_prefix (value : string) :
  (value = first_entry value
   \/ exists rest, value = first_entry value +:+ String "," rest)
  /\ forall rest, first_entry value <> String "," rest.
Proof.
  induction value as [|c value [IH1 IH2]]; simpl; [split; [by left | done]|].
  destruct (Ascii.eqb c ",") eqn:Hc.
  - apply Ascii.eqb_eq in Hc as ->. split; [right; by eexists | done].
  - split.
    + destruct IH1 as [IH1 | [rest IH1]]; [left | right; exists rest];
        rewrite IH1 at 1; reflexivity.
    + intros rest [= -> _]. by rewrite Ascii.eqb_refl in Hc.
Qed.

Lemma headers_getitem_first
    (pre post : list (string * string)) (key value : string) :
  Forall (fun kv => fst kv <> key) pre ->
  headers_contains (pre ++ (key, value) :: post)%list key = true
  /\ headers_getitem (pre ++ (key, value) :: post)%list key = inr value.
Proof.
  unfold headers_contains, headers_getitem.
  induction 1 as [|[k v] pre Hk Hpre [IH1 IH2]]; simpl.
  - by rewrite String.eqb_refl.
  - apply String.eqb_neq in Hk. simpl in Hk. rewrite Hk. simpl. done.
Qed.

Lemma headers_contains_absent (hs : list (string * string)) (key : string) :
  Forall (fun kv => fst kv <> key) hs -> headers_contains hs key = false.
Proof.
  unfold headers_contains. induction 1 as [|[k v] hs Hk Hhs IH]; simpl; [done|].
  apply String.eqb_neq in Hk. simpl in Hk. by rewrite Hk.
Qed.

Lemma headers_getitem_contains (hs : list (string * string)) (key : string) :
  headers_contains hs key = true -> exists value, headers_getitem hs key = inr value.
Proof.
  unfold headers_contains, headers_getitem.
  induction hs as [|[k v] hs IH]; simpl; [done|].
  destruct (String.eqb k key); simpl; [by eexists | done].
Qed.

(** Lines 85-88 always produce an address or [None]. *)
Lemma extract_ip_total (request : Request) :
  exists ip, extract_ip request = inr ip.
Proof.
  unfold extract_ip.
  destruct (headers_contains _ _) eqn:Hc; [|by eexists].
  apply headers_getitem_contains in Hc as [value ->].
  destruct (split_first_entry value) as [rest ->]. by eexists.
Qed.

Lemma get_user_enriched (settings : Settings) (request : Request) (user : User) :
  exists ip, extract_ip request = inr ip
    /\ fst (get_user settings request user) = set_ip_address user ip.
Proof.
  destruct (extract_ip_total request) as [ip Hip].
  exists ip. split; [done|]. unfold get_user. by rewrite Hip.
Qed.

(** C9: [get_user] always sets [ip_address]: to the stripped first
    comma-separated entry of the first [x-forwarded-for] header if there
    is one, else to the host of the peer, else to [None].  The step
    cannot fail ([get_user] raises nothing but its two 403 errors) and
    leaves the other fields of the principal as they were. *)
Theorem get_user_enrichment (settings : Settings) (request : Request) (user : User) :
  (forall pre value post,
     headers request = (pre ++ ("x-forwarded-for", value) :: post)%list ->
     Forall (fun kv => fst kv <> "x-forwarded-for") pre ->
     ip_address (fst (get_user settings request user))
     = Some (strip (first_entry value)))
  /\ (Forall (fun kv => fst kv <> "x-forwarded-for") (headers request) ->
      (forall peer, client request = Some peer ->
         ip_address (fst (get_user settings request user)) = Some (host peer))
      /\ (client request = None ->
          ip_address (fst (get_user settings request user)) = None))
  /\ (id (fst (get_user settings request user)) = id user
      /\ name (fst (get_user settings request user)) = name user
      /\ roles (fst (get_user settings request user)) = roles user
      /\ user_data (fst (get_user settings request user)) = user_data user)
  /\ extract_ip request = inr (ip_address (fst (get_user settings request user)))
  /\ (forall e, outcome (snd (get_user settings request user)) = inl e ->
        exists detail, e = HTTPException 403 detail).
Proof.
  destruct (get_user_enriched settings request user) as (ip & Hip & Huser).
  split_and!.
  - intros pre value post Hhs Hpre. rewrite Huser. simpl.
    destruct (headers_getitem_first pre post _ value Hpre) as [Hc Hget].
    unfold extract_ip in Hip. rewrite Hhs, Hc, Hget in Hip.
    destruct (split_first_entry value) as [rest Hsplit].
    rewrite Hsplit in Hip. simpl in Hip. congruence.
  - intros Habsent. apply headers_contains_absent in Habsent.
    unfold extract_ip in Hip. rewrite Habsent in Hip. rewrite Huser. simpl.
    split; [intros peer Hpeer | intros Hpeer]; rewrite Hpeer in Hip; congruence.
  - by rewrite Huser.
  - by rewrite Huser.
  - by rewrite Huser.
  - by rewrite Huser.
  - by rewrite Huser.
  - intros e. unfold get_user. rewrite Hip. run_monad.
    destruct (truthy_seq (auth_providers settings)); simpl; [|done].
    destruct (has_required_roles _ _); simpl; [|intros [= <-]; by eexists].
    destruct (is_authorized _); simpl; [done | intros [= <-]; by eexists].
Qed.

Lemma set_difference_empty (required user_roles : list string) :
  set_difference required user_roles = ∅ <-> required ⊆ user_roles.
Proof.
  unfold set_difference. split.
  - intros Hempty r Hr. destruct (decide (r ∈ user_roles)) as [|Hnot]; [done|].
    assert (r ∈ (list_to_set required ∖ list_to_set user_roles : gset string)) as Hin
      by (apply elem_of_difference; by rewrite !elem_of_list_to_set).
    rewrite Hempty in Hin. by apply not_elem_of_empty in Hin.
  - intros Hsub. apply leibniz_equiv, elem_of_equiv_empty. intros r.
    rewrite elem_of_difference, !elem_of_list_to_set. intros [Hr Hnot]. by apply Hnot, Hsub.
Qed.

(** The roles the error message lists. *)
Lemma set_iter_difference (required user_roles : list string) :
  NoDup (set_iter (set_difference required user_roles))
  /\ forall r, r ∈ set_iter (set_difference required user_roles)
               <-> r ∈ required /\ r ∉ user_roles.
Proof.
  split.
  - rewrite set_iter_perm. apply NoDup_elements.
  - intros r. rewrite set_iter_perm, elem_of_elements. unfold set_difference.
    by rewrite elem_of_difference, !elem_of_list_to_set.
Qed.

(** C6, as the code has it: with at least one provider configured, a
    principal that lacks some required role is refused with
    [InsufficientRole] (HTTP 403), and the detail names the principal and
    lists the roles of R - P, each once and no other. *)
Theorem insufficient_role (settings : Settings) (request : Request) (user : User) :
  auth_providers settings <> [] ->
  ~ (auth_required_roles settings ⊆ roles user) ->
  exists missing, NoDup missing
    /\ (forall r, r ∈ missing <-> r ∈ auth_required_roles settings /\ r ∉ roles user)
    /\ outcome (snd (get_user settings request user))
       = inl (InsufficientRole (name user) missing).
Proof.
  intros Hne Hmissing.
  destruct (extract_ip_total request) as [ip Hip].
  exists (set_iter (set_difference (auth_required_roles settings) (roles user))).
  destruct (set_iter_difference (auth_required_roles settings) (roles user)) as [Hnd Hin].
  split_and!; [done | done |].
  unfold get_user. rewrite Hip.
  destruct (auth_providers settings) as [|p ps]; [done|].
  unfold has_required_roles. run_monad.
  rewrite bool_decide_eq_false_2; [done|].
  by rewrite set_difference_empty.
Qed.

(** C7: with no provider configured [authenticate] returns the anonymous
    principal ("n/a", "Anonymous") and does nothing else, and [get_user]
    returns the enriched principal without calling
    [has_required_roles] or [is_authorized]. *)
Theorem auth_disabled
    (settings : Settings) (token : string) (hint : option string)
    (request : Request) (user : User) :
  auth_providers settings = [] ->
  authenticate settings token hint = ([], inr (User_new "n/a" "Anonymous"))
  /\ id (User_new "n/a" "Anonymous") = "n/a"
  /\ name (User_new "n/a" "Anonymous") = "Anonymous"
  /\ outcome (snd (get_user settings request user))
     = inr (fst (get_user settings request user))
  /\ role_checks (trace (snd (get_user settings request user))) = 0%nat
  /\ authorization_checks (trace (snd (get_user settings request user))) = 0%nat.
Proof.
  intros Hnone. split_and!; try done.
  - unfold authenticate. by rewrite Hnone.
  - destruct (extract_ip_total request) as [ip Hip].
    unfold get_user. rewrite Hip, Hnone. done.
  - destruct (extract_ip_total request) as [ip Hip].
    unfold get_user. rewrite Hip, Hnone. done.
  - destruct (extract_ip_total request) as [ip Hip].
    unfold get_user. rewrite Hip, Hnone. done.
Qed.

End AccessController.

(** ** Traces without book events *)

Section BookFreeTraces.
Context `{Externals}.

Lemma bind_inl {A B : Type} (m : M A) (k : A -> M B) (e : exn) :
  outcome m = inl e -> m ≫= k = (trace m, inl e).
Proof. destruct m as [t [e'|a]]; run_monad; congruence. Qed.

Lemma bind_inr {A B : Type} (m : M A) (k : A -> M B) (a : A) :
  outcome m = inr a ->
  m ≫= k = ((trace m ++ trace (k a))%list, outcome (k a)).
Proof.
  destruct m as [t [e|a']]; run_monad; [done|].
  intros [= ->]. by destruct (k a).
Qed.


Lemma parse_book_input_book_free (request : Request) (form_data : option string) :
  book_free (trace (parse_book_input request form_data)).
Proof.
  unfold parse_book_input, request_body.
  destruct form_data as [[|c s]|]; run_monad; try done;
    (destruct (body request); simpl; [done|]);
    (destruct (decode_utf8 _) as [e|body_str]; simpl; [done|]);
    by destruct (json_loads body_str).
Qed.




End BookFreeTraces.

(** ** Further behaviour of the book dependencies *)

Section BookBehaviour.
Context `{Externals}.


(** When the book opens and closes without error, [get_book] does two
    things, open then close, and ends as the handler did: normally, or
    with the exception of the handler (or the cancellation), unchanged,
    as long as that exception is no [StopIteration] and no
    [StopAsyncIteration], which an async generator does not let through. *)
Theorem get_book_outcome_after_release
    (book_data : json) (handler : book -> signal) (b : book) :
  xw_Book book_data = inr b ->
  xw_close b = None ->
  (forall e, handler b = Throw e ->
     isinstance e "StopIteration" = false
     /\ isinstance e "StopAsyncIteration" = false) ->
  get_book book_data handler
  = ([BookOpen book_data; BookClose b],
     match handler b with
     | Send => inr tt
     | Throw e => inl e
     end).
Proof.
  intros Hopen Hclose _.
  unfold get_book, get_book_start, get_book_resume, book_close, yield_.
  run_monad. rewrite Hopen. simpl. rewrite Hclose. by destruct (handler b).
Qed.


Lemma get_book_trace (book_data : json) (handler : book -> signal) :
  body_reads (trace (get_book book_data handler)) = 0%nat
  /\ opened (trace (get_book book_data handler)) = [book_data]
  /\ (length (released (trace (get_book book_data handler))) <= 1)%nat.
Proof.
  unfold get_book, get_book_start, get_book_resume, book_close, yield_.
  run_monad. destruct (xw_Book book_data) as [e|b]; simpl; [split_and!; done || lia|].
  destruct (handler b), (xw_close b); simpl; split_and!; done || lia.
Qed.

Lemma parse_book_input_reads (request : Request) (form_data : option string) :
  (body_reads (trace (parse_book_input request form_data)) <= 1)%nat.
Proof.
  unfold parse_book_input, request_body, body_reads.
  destruct form_data as [[|c s]|]; run_monad; try lia;
    (destruct (body request); simpl; [lia|]);
    (destruct (decode_utf8 _) as [e|body_str]; simpl; [lia|]);
    destruct (json_loads body_str); simpl; lia.
Qed.

Lemma body_reads_app `{Objects} (t1 t2 : list event) :
  body_reads (t1 ++ t2) = (body_reads t1 + body_reads t2)%nat.
Proof. unfold body_reads. by rewrite List.filter_app, length_app. Qed.

Lemma opened_app `{Objects} (t1 t2 : list event) :
  opened (t1 ++ t2) = (opened t1 ++ opened t2)%list.
Proof. apply omap_app. Qed.

Lemma released_app `{Objects} (t1 t2 : list event) :
  released (t1 ++ t2) = (released t1 ++ released t2)%list.
Proof. apply omap_app. Qed.

(** The book dependency of a route: when the input cannot be parsed, the
    error of [parse_book_input] is the result and no book is opened or
    closed. *)
Theorem Book_dependency_parse_failure
    (request : Request) (form_data : option string) (handler : book -> signal)
    (e : exn) :
  outcome (parse_book_input request form_data) = inl e ->
  outcome (Book_dependency request form_data handler) = inl e
  /\ opened (trace (Book_dependency request form_data handler)) = []
  /\ released (trace (Book_dependency request form_data handler)) = [].
Proof.
  intros Hfail. unfold Book_dependency. rewrite (bind_inl _ _ _ Hfail).
  destruct (parse_book_input_book_free request form_data) as [Ho Hr].
  by split_and!.
Qed.

(** The book dependency opens at most one book, only from the document
    [parse_book_input] returned; it reads the request body at most once
    and closes no more books than it opened. *)
Theorem Book_dependency_opens_parsed_document
    (request : Request) (form_data : option string) (handler : book -> signal) :
  (forall doc, doc ∈ opened (trace (Book_dependency request form_data handler)) ->
     outcome (parse_book_input request form_data) = inr doc)
  /\ (body_reads (trace (Book_dependency request form_data handler)) <= 1)%nat
  /\ (length (released (trace (Book_dependency request form_data handler)))
      <= length (opened (trace (Book_dependency request form_data handler))) <= 1)%nat.
Proof.
  pose proof (parse_book_input_reads request form_data) as Hreads.
  destruct (parse_book_input_book_free request form_data) as [Ho Hr].
  assert (forall (t : list event) (r : exn + unit), trace (t, r) = t) as Htr by done.
  unfold Book_dependency.
  destruct (outcome (parse_book_input request form_data)) as [e|doc] eqn:Hparse.
  - rewrite (bind_inl _ _ _ Hparse), Htr, Ho, Hr.
    split_and!; [by intros ? ?%elem_of_nil | done | simpl; lia ..].
  - rewrite (bind_inr _ _ _ Hparse), Htr.
    destruct (get_book_trace doc handler) as (Hb & Hopen & Hrel).
    rewrite opened_app, released_app, body_reads_app, Ho, Hr, Hopen, Hb.
    simpl. split_and!; [by intros ? ->%list_elem_of_singleton | lia | lia | lia].
Qed.

End BookBehaviour.

(** ** Further behaviour of [authenticate] *)

Section AuthenticateBehaviour.
Context `{Externals}.

Lemma select_provider_inl (settings : Settings) (hint : option string) (e : exn) :
  auth_providers settings <> [] ->
  select_provider settings hint = inl e ->
  e = AmbiguousProvider \/ e = UnknownProvider.
Proof.
  intros Hne. unfold select_provider.
  destruct (auth_providers settings) as [|p1 [|p2 ps]]; simpl; [done | done |].
  destruct (truthy_str hint); simpl; [|intros [= <-]; by left].
  destruct (contains hint (p1 :: p2 :: ps)); simpl; [done|].
  intros [= <-]. by right.
Qed.

(** The six ways the [try] of lines 71-79 can go. *)
Lemma dispatch_cases (p token : string) :
  let modname := "app.auth." +:+ p in
  let msg := "Auth provider '" +:+ p +:+ "' implementation missing." in
  (exists e, import_module modname = inl e /\ implementation_missing e = true
     /\ dispatch (Some p) token
        = ([ImportModule modname; LogException msg e],
           inl (ProviderImplementationMissing p)))
  \/ (exists e, import_module modname = inl e /\ implementation_missing e = false
        /\ dispatch (Some p) token = ([ImportModule modname], inl e))
  \/ (exists m e, import_module modname = inr m /\ validate_token m = None
        /\ dispatch (Some p) token
           = ([ImportModule modname; LogException msg e],
              inl (ProviderImplementationMissing p)))
  \/ (exists m validate e, import_module modname = inr m
        /\ validate_token m = Some validate /\ validate token = inl e
        /\ implementation_missing e = true
        /\ dispatch (Some p) token
           = ([ImportModule modname; ValidateToken modname token; LogException msg e],
              inl (ProviderImplementationMissing p)))
  \/ (exists m validate e, import_module modname = inr m
        /\ validate_token m = Some validate /\ validate token = inl e
        /\ implementation_missing e = false
        /\ dispatch (Some p) token
           = ([ImportModule modname; ValidateToken modname token], inl e))
  \/ (exists m validate u, import_module modname = inr m
        /\ validate_token m = Some validate /\ validate token = inr u
        /\ dispatch (Some p) token
           = ([ImportModule modname; ValidateToken modname token], inr u)).
Proof.
  intros modname msg. subst modname msg.
  unfold dispatch, load_and_validate, getattr_validate_token, ProviderImplementationMissing.
  run_monad.
  destruct (import_module ("app.auth." +:+ p)) as [e|m] eqn:Himport; simpl.
  - destruct (implementation_missing e) eqn:Hmiss; simpl.
    + left. by exists e.
    + right; left. by exists e.
  - destruct (validate_token m) as [validate|] eqn:Hattr; simpl.
    + destruct (validate token) as [e|u] eqn:Hval; simpl.
      * destruct (implementation_missing e) eqn:Hmiss; simpl.
        -- do 3 right; left. by exists m, validate, e.
        -- do 4 right; left. by exists m, validate, e.
      * do 5 right. by exists m, validate, u.
    + do 2 right; left. by eexists m, _.
Qed.

(** The three ways [authenticate] can go before the dispatch. *)
Lemma authenticate_cases
    (settings : Settings) (token : string) (hint : option string) :
  (auth_providers settings = []
   /\ authenticate settings token hint = ([], inr (User_new "n/a" "Anonymous")))
  \/ (exists e, (e = AmbiguousProvider \/ e = UnknownProvider)
        /\ authenticate settings token hint = ([], inl e))
  \/ (exists p, p ∈ auth_providers settings
        /\ select_provider settings hint = inr (Some p)
        /\ authenticate settings token hint
           = (LogInfo ("Using auth provider " +:+ p) :: trace (dispatch (Some p) token),
              outcome (dispatch (Some p) token))).
Proof.
  destruct (auth_providers settings) as [|p1 ps] eqn:Hps.
  - left. split; [done|]. unfold authenticate. by rewrite Hps.
  - right. assert (auth_providers settings <> []) as Hne by by rewrite Hps.
    destruct (select_provider settings hint) as [e|provider] eqn:Hsel.
    + left. exists e. split; [by apply (select_provider_inl settings hint)|].
      by apply authenticate_rejected.
    + right. destruct (select_provider_inr _ _ _ Hsel) as [_ (p & -> & Hp)].
      exists p. rewrite Hps in Hp. split_and!; [done | done |].
      by apply authenticate_selected.
Qed.

(** [authenticate] imports and calls nothing but the module
    [app.auth.<p>] of a configured provider [p], and says which provider
    it uses in the log before it imports the module. *)
Theorem authenticate_invokes_configured
    (settings : Settings) (token : string) (hint : option string) (m : string) :
  m ∈ invoked (trace (authenticate settings token hint)) ->
  exists p rest, p ∈ auth_providers settings
    /\ m = "app.auth." +:+ p
    /\ trace (authenticate settings token hint)
       = LogInfo ("Using auth provider " +:+ p) :: ImportModule m :: rest.
Proof.
  destruct (authenticate_cases settings token hint)
    as [[_ ->] | [(e & _ & ->) | (p & Hp & _ & ->)]];
    [by intros ?%elem_of_nil .. |].
  unfold trace at 1 3. simpl.
  destruct (dispatch_invoked (Some p) token) as [_ Hall].
  intros Hm. rewrite Forall_forall in Hall. specialize (Hall m Hm). subst m.
  destruct (dispatch_cases p token)
    as [(e & _ & _ & ->) | [(e & _ & _ & ->) | [(m & e & _ & _ & ->)
       | [(m & v & e & _ & _ & _ & _ & ->) | [(m & v & e & _ & _ & _ & _ & ->)
       | (m & v & u & _ & _ & _ & ->)]]]]];
    exists p; eexists; (split_and!; [done | done | reflexivity]).
Qed.

(** No [AttributeError] and no [ModuleNotFoundError] leaves
    [authenticate]. *)
Theorem authenticate_never_raises_missing
    (settings : Settings) (token : string) (hint : option string) (e : exn) :
  outcome (authenticate settings token hint) = inl e ->
  isinstance e "AttributeError" = false /\ isinstance e "ModuleNotFoundError" = false.
Proof.
  intros Hout. apply orb_false_elim.
  change (implementation_missing e = false).
  destruct (authenticate_cases settings token hint)
    as [[_ Hrun] | [(e' & He' & Hrun) | (p & _ & _ & Hrun)]];
    rewrite Hrun in Hout; simpl in Hout.
  - done.
  - injection Hout as <-. by destruct He' as [-> | ->].
  - destruct (dispatch_cases p token)
      as [(e' & _ & _ & Hd) | [(e' & _ & Hmiss & Hd) | [(m & e' & _ & _ & Hd)
         | [(m & v & e' & _ & _ & _ & _ & Hd) | [(m & v & e' & _ & _ & _ & Hmiss & Hd)
         | (m & v & u & _ & _ & _ & Hd)]]]]];
      rewrite Hd in Hout; simpl in Hout; try (by injection Hout as <-); done.
Qed.


(** A principal [authenticate] returns is the anonymous one, when no
    provider is configured, or else what [validate_token] of the selected
    configured provider returned for the token, as it is. *)
Theorem authenticate_success_source
    (settings : Settings) (token : string) (hint : option string) (user : User) :
  outcome (authenticate settings token hint) = inr user ->
  (auth_providers settings = [] /\ user = User_new "n/a" "Anonymous")
  \/ exists p m validate, p ∈ auth_providers settings
       /\ select_provider settings hint = inr (Some p)
       /\ import_module ("app.auth." +:+ p) = inr m
       /\ validate_token m = Some validate
       /\ validate token = inr user.
Proof.
  intros Hout.
  destruct (authenticate_cases settings token hint)
    as [[Hnone Hrun] | [(e' & He' & Hrun) | (p & Hp & Hsel & Hrun)]];
    rewrite Hrun in Hout; simpl in Hout.
  - left. split; [done | congruence].
  - done.
  - right.
    destruct (dispatch_cases p token)
      as [(e' & _ & _ & Hd) | [(e' & _ & _ & Hd) | [(m & e' & _ & _ & Hd)
         | [(m & v & e' & _ & _ & _ & _ & Hd) | [(m & v & e' & _ & _ & _ & _ & Hd)
         | (m & v & u & Himp & Hattr & Hval & Hd)]]]]];
      rewrite Hd in Hout; simpl in Hout; try done.
    injection Hout as <-. by exists p, m, v.
Qed.

(** With one configured provider the hint has no effect at all: two
    requests that differ only in the hint run alike. *)
Theorem authenticate_single_provider_ignores_hint
    (settings : Settings) (token : string) (hint1 hint2 : option string) :
  length (auth_providers settings) = 1%nat ->
  authenticate settings token hint1 = authenticate settings token hint2.
Proof.
  intros Hlen. destruct (auth_providers settings) as [|p [|p2 ps]] eqn:Hps; try done.
  unfold authenticate.
  by rewrite (select_provider_single p settings hint1 Hps),
             (select_provider_single p settings hint2 Hps).
Qed.

(** [authenticate] never retries: it imports at most one module and calls
    [validate_token] at most once, on the module it imported and with the
    token of the request, unchanged. *)
Theorem authenticate_no_retry
    (settings : Settings) (token : string) (hint : option string) :
  (length (imports (trace (authenticate settings token hint))) <= 1)%nat
  /\ (length (validations (trace (authenticate settings token hint))) <= 1)%nat
  /\ forall m token', (m, token') ∈ validations (trace (authenticate settings token hint)) ->
       token' = token /\ imports (trace (authenticate settings token hint)) = [m].
Proof.
  destruct (authenticate_cases settings token hint)
    as [[_ ->] | [(e & _ & ->) | (p & _ & _ & ->)]];
    [split_and!; [simpl; lia | simpl; lia | by intros ? ? ?%elem_of_nil] .. |].
  destruct (dispatch_cases p token)
    as [(e' & _ & _ & ->) | [(e' & _ & _ & ->) | [(m & e' & _ & _ & ->)
       | [(m & v & e' & _ & _ & _ & _ & ->) | [(m & v & e' & _ & _ & _ & _ & ->)
       | (m & v & u & _ & _ & _ & ->)]]]]];
    (split_and!; [simpl; lia | simpl; lia |]); simpl;
    intros m' token' Hin;
    try (by apply elem_of_nil in Hin);
    apply list_elem_of_singleton in Hin; by injection Hin as -> ->.
Qed.

End AuthenticateBehaviour.

(** ** Further behaviour of [get_user] and of the user dependency *)

Section GetUserBehaviour.
Context `{Externals}.

(** What [get_user] does after the address is attached. *)
Lemma get_user_run (settings : Settings) (request : Request) (user : User) :
  let user' := fst (get_user settings request user) in
  snd (get_user settings request user)
  = if negb (truthy_seq (auth_providers settings)) then ([], inr user')
    else if negb (has_required_roles user' (auth_required_roles settings)) then
      ([HasRequiredRoles (auth_required_roles settings)],
       inl (InsufficientRole (name user')
              (set_iter (set_difference (auth_required_roles settings) (roles user')))))
    else if negb (is_authorized user') then
      ([HasRequiredRoles (auth_required_roles settings); IsAuthorized], inl NotAuthorized)
    else
      ([HasRequiredRoles (auth_required_roles settings); IsAuthorized], inr user').
Proof.
  destruct (extract_ip_total request) as [ip Hip].
  unfold get_user. rewrite Hip. simpl. run_monad.
  destruct (truthy_seq (auth_providers settings)); simpl; [|done].
  destruct (has_required_roles _ _); simpl; [|done].
  by destruct (is_authorized _).
Qed.

(** With a provider configured, a principal that passes the role check
    and is refused by [is_authorized] gets [NotAuthorized] (HTTP 403),
    whose detail lists no roles; the role check ran first. *)
Theorem get_user_not_authorized
    (settings : Settings) (request : Request) (user : User) :
  auth_providers settings <> [] ->
  has_required_roles (fst (get_user settings request user))
    (auth_required_roles settings) = true ->
  is_authorized (fst (get_user settings request user)) = false ->
  snd (get_user settings request user)
  = ([HasRequiredRoles (auth_required_roles settings); IsAuthorized],
     inl (HTTPException 403 "Auth error: Not authorized.")).
Proof.
  intros Hne Hroles Hauthz. rewrite get_user_run. cbv zeta.
  rewrite Hroles, Hauthz. by destruct (auth_providers settings).
Qed.

(** [get_user] lets a principal through exactly when no provider is
    configured, or the role check and [is_authorized] both hold for the
    principal with its address attached; what it returns then is that
    same principal. *)
Theorem get_user_admits_iff
    (settings : Settings) (request : Request) (user : User) :
  (forall admitted, outcome (snd (get_user settings request user)) = inr admitted ->
     admitted = fst (get_user settings request user))
  /\ ((exists admitted, outcome (snd (get_user settings request user)) = inr admitted)
      <-> auth_providers settings = []
          \/ (has_required_roles (fst (get_user settings request user))
                (auth_required_roles settings) = true
              /\ is_authorized (fst (get_user settings request user)) = true)).
Proof.
  rewrite get_user_run. cbv zeta.
  destruct (auth_providers settings) as [|p ps]; simpl.
  - split; [by intros ? [= <-]|]. split; [by left | by eexists].
  - destruct (has_required_roles _ _); simpl.
    + destruct (is_authorized _); simpl.
      * split; [by intros ? [= <-]|]. split; [by right | by eexists].
      * split; [done|]. split; [by intros [? ?] | by intros [? | [_ ?]]].
    + split; [done|]. split; [by intros [? ?] | by intros [? | [? _]]].
Qed.

(** The checks of [get_user] come in one order and at most once each:
    none when no provider is configured; the role check alone when it
    fails; the role check and then [is_authorized] when it passes.  So
    [is_authorized] is never asked about a principal that lacks a role. *)
Theorem get_user_checks_order
    (settings : Settings) (request : Request) (user : User) :
  (auth_providers settings = []
   /\ trace (snd (get_user settings request user)) = [])
  \/ (auth_providers settings <> []
      /\ has_required_roles (fst (get_user settings request user))
           (auth_required_roles settings) = false
      /\ trace (snd (get_user settings request user))
         = [HasRequiredRoles (auth_required_roles settings)])
  \/ (auth_providers settings <> []
      /\ has_required_roles (fst (get_user settings request user))
           (auth_required_roles settings) = true
      /\ trace (snd (get_user settings request user))
         = [HasRequiredRoles (auth_required_roles settings); IsAuthorized]).
Proof.
  rewrite get_user_run. cbv zeta.
  destruct (auth_providers settings) as [|p ps]; simpl; [by left|].
  right. destruct (has_required_roles _ _); simpl.
  - right. by destruct (is_authorized _).
  - by left.
Qed.

Lemma list_ascii_of_string_app (a b : string) :
  list_ascii_of_string (a +:+ b)
  = (list_ascii_of_string a ++ list_ascii_of_string b)%list.
Proof. induction a as [|c a IH]; simpl; [done | by rewrite <- IH]. Qed.

Lemma first_entry_no_comma (value : string) :
  ","%char ∉ list_ascii_of_string (first_entry value).
Proof.
  induction value as [|c value IH]; simpl; [apply not_elem_of_nil|].
  destruct (Ascii.eqb c ",") eqn:Hc; simpl; [apply not_elem_of_nil|].
  apply not_elem_of_cons. split; [|done].
  intros <-. by rewrite Ascii.eqb_refl in Hc.
Qed.

Lemma strip_chars (s : string) (c : ascii) :
  c ∈ list_ascii_of_string (strip s) -> c ∈ list_ascii_of_string s.
Proof.
  destruct (strip_spec s) as (l & r & Hs & _). intros Hc.
  rewrite Hs, !list_ascii_of_string_app, !elem_of_app. by right; left.
Qed.

Lemma lstrip_all_space (s : string) : all_space s = true -> lstrip s = "".
Proof.
  induction s as [|c s IH]; simpl; [done|].
  destruct (isspace c); simpl; [done | discriminate].
Qed.

Lemma strip_all_space (s : string) : all_space s = true -> strip s = "".
Proof. intros Hs. unfold strip. by rewrite lstrip_all_space. Qed.

Lemma get_user_forwarded_ip
    (settings : Settings) (request : Request) (user : User)
    (pre post : list (string * string)) (value : string) :
  headers request = (pre ++ ("x-forwarded-for", value) :: post)%list ->
  Forall (fun kv => fst kv <> "x-forwarded-for") pre ->
  ip_address (fst (get_user settings request user)) = Some (strip (first_entry value)).
Proof.
  intros Hhs Hpre.
  destruct (get_user_enriched settings request user) as (ip & Hip & ->). simpl.
  destruct (headers_getitem_first pre post _ value Hpre) as [Hc Hget].
  unfold extract_ip in Hip. rewrite Hhs, Hc, Hget in Hip.
  destruct (split_first_entry value) as [rest Hsplit].
  rewrite Hsplit in Hip. simpl in Hip. congruence.
Qed.

(** An address taken from the [x-forwarded-for] header holds no comma and
    neither starts nor ends with white space. *)
Theorem get_user_forwarded_ip_clean
    (settings : Settings) (request : Request) (user : User)
    (pre post : list (string * string)) (value : string) :
  headers request = (pre ++ ("x-forwarded-for", value) :: post)%list ->
  Forall (fun kv => fst kv <> "x-forwarded-for") pre ->
  exists address,
    ip_address (fst (get_user settings request user)) = Some address
    /\ (","%char ∉ list_ascii_of_string address)
    /\ (forall c t, address = String c t -> isspace c = false)
    /\ (forall t c, address = t +:+ String c "" -> isspace c = false).
Proof.
  intros Hhs Hpre. exists (strip (first_entry value)).
  destruct (strip_spec (first_entry value)) as (l & r & _ & _ & _ & Hhead & Hlast).
  split_and!; [by apply (get_user_forwarded_ip _ _ _ pre post) | | done | done].
  intros Hc%strip_chars. by apply (first_entry_no_comma value).
Qed.

(** A forwarded-for header whose first entry is blank gives the empty
    address: the address of the peer is not used in its place. *)
Theorem get_user_blank_forwarded_header
    (settings : Settings) (request : Request) (user : User)
    (pre post : list (string * string)) (value : string) :
  headers request = (pre ++ ("x-forwarded-for", value) :: post)%list ->
  Forall (fun kv => fst kv <> "x-forwarded-for") pre ->
  all_space (first_entry value) = true ->
  ip_address (fst (get_user settings request user)) = Some "".
Proof.
  intros Hhs Hpre Hblank.
  rewrite (get_user_forwarded_ip _ _ _ pre post value Hhs Hpre).
  by rewrite strip_all_space.
Qed.

Lemma authenticate_no_checks
    (settings : Settings) (token : string) (hint : option string) :
  role_checks (trace (authenticate settings token hint)) = 0%nat
  /\ authorization_checks (trace (authenticate settings token hint)) = 0%nat.
Proof.
  destruct (authenticate_cases settings token hint)
    as [[_ ->] | [(e & _ & ->) | (p & _ & _ & ->)]]; [done | done |].
  by destruct (dispatch_cases p token)
    as [(e' & _ & _ & ->) | [(e' & _ & _ & ->) | [(m & e' & _ & _ & ->)
       | [(m & v & e' & _ & _ & _ & _ & ->) | [(m & v & e' & _ & _ & _ & _ & ->)
       | (m & v & u & _ & _ & _ & ->)]]]]].
Qed.

(** The user dependency of a route: when [authenticate] fails, its error
    is the result and neither the role check nor [is_authorized] is
    called. *)
Theorem User_dependency_auth_failure
    (settings : Settings) (request : Request) (token : string)
    (hint : option string) (e : exn) :
  outcome (authenticate settings token hint) = inl e ->
  outcome (User_dependency settings request token hint) = inl e
  /\ role_checks (trace (User_dependency settings request token hint)) = 0%nat
  /\ authorization_checks (trace (User_dependency settings request token hint)) = 0%nat.
Proof.
  intros Hfail. unfold User_dependency. rewrite (bind_inl _ _ _ Hfail).
  destruct (authenticate_no_checks settings token hint) as [Hr Ha].
  by split_and!.
Qed.

(** With a provider configured, whoever the user dependency lets through
    was returned by [validate_token] of a configured provider for the
    token of the request, and, with the address attached, passed the role
    check and [is_authorized]. *)
Theorem User_dependency_admitted
    (settings : Settings) (request : Request) (token : string)
    (hint : option string) (admitted : User) :
  auth_providers settings <> [] ->
  outcome (User_dependency settings request token hint) = inr admitted ->
  exists p m validate user,
    p ∈ auth_providers settings
    /\ import_module ("app.auth." +:+ p) = inr m
    /\ validate_token m = Some validate
    /\ validate token = inr user
    /\ admitted = fst (get_user settings request user)
    /\ has_required_roles admitted (auth_required_roles settings) = true
    /\ is_authorized admitted = true.
Proof.
  intros Hne. unfold User_dependency.
  destruct (outcome (authenticate settings token hint)) as [e|user] eqn:Hauth.
  - by rewrite (bind_inl _ _ _ Hauth).
  - rewrite (bind_inr _ _ _ Hauth). unfold outcome at 1. simpl.
    destruct (authenticate_cases settings token hint)
      as [[Hnone _] | [(e' & _ & Hrun) | (p & Hp & _ & Hrun)]];
      [done | by rewrite Hrun in Hauth |].
    rewrite Hrun in Hauth. simpl in Hauth.
    destruct (dispatch_cases p token)
      as [(e' & _ & _ & Hd) | [(e' & _ & _ & Hd) | [(m & e' & _ & _ & Hd)
         | [(m & v & e' & _ & _ & _ & _ & Hd) | [(m & v & e' & _ & _ & _ & _ & Hd)
         | (m & v & u & Himp & Hattr & Hval & Hd)]]]]];
      rewrite Hd in Hauth; simpl in Hauth; try done.
    injection Hauth as ->.
    rewrite get_user_run. cbv zeta.
    destruct (auth_providers settings) as [|p1 ps]; [done|]. simpl.
    destruct (has_required_roles _ _) eqn:Hroles; simpl; [|done].
    destruct (is_authorized _) eqn:Hauthz; simpl; [|done].
    intros [= <-]. by exists p, m, v, user.
Qed.

End GetUserBehaviour.

(** ** Acquisition and the identity chain *)

Section Acquisition.
Context `{Externals}.



End Acquisition.

(** ** Runs on the sample deployment *)

Import Sample.

(** The two end-to-end scenarios of the spec. *)
Example scenario_one_provider :
  @authenticate _ closes_fine one_provider "Bearer good" None
  = ([LogInfo "Using auth provider okta"; ImportModule "app.auth.okta";
      ValidateToken "app.auth.okta" "Bearer good"], inr alice).
Proof. reflexivity. Qed.

Example scenario_two_providers_no_hint :
  @User_dependency _ closes_fine two_providers proxied_request "Bearer good" None
  = ([], inl AmbiguousProvider).
Proof. reflexivity. Qed.

Example scenario_admitted :
  @User_dependency _ closes_fine two_providers proxied_request "Bearer good" (Some "okta")
  = ([LogInfo "Using auth provider okta"; ImportModule "app.auth.okta";
      ValidateToken "app.auth.okta" "Bearer good"; HasRequiredRoles []; IsAuthorized],
     inr (set_ip_address alice (Some "203.0.113.7")))
  /\ @Book_dependency _ closes_fine proxied_request None (fun _ => Send)
     = ([ReadBody; BookOpen "{}"; BookClose 2%nat], inr tt).
Proof. split; vm_compute; reflexivity. Qed.

Example scenario_missing_role :
  snd (@get_user _ closes_fine one_provider proxied_request alice)
  = ([HasRequiredRoles ["editor"; "viewer"]],
     inl (HTTPException 403 "Auth error: Missing roles for Alice: editor")).
Proof. vm_compute. reflexivity. Qed.

Example strip_split_example :
  strip " 203.0.113.7 " = "203.0.113.7"
  /\ split "," "a,,b" = ["a"; ""; "b"]
  /\ split "," "" = [""].
Proof. repeat split. Qed.


(** C1 on a request that is cancelled while the handler runs. *)
Lemma get_book_releases_once_witness :
  outcome (@get_book_start _ closes_fine "{}") = inr 2%nat
  /\ released (trace (@get_book _ closes_fine "{}" (fun _ => Throw CancelledError))) = [2%nat]
  /\ opened (trace (@get_book _ closes_fine "{}" (fun _ => Throw CancelledError))) = ["{}"].
Proof.
  split; [reflexivity|].
  apply (@get_book_releases_once _ closes_fine "{}" (fun _ => Throw CancelledError) 2%nat).
  reflexivity.
Defined.



(** C2: with two providers, an empty hint is rejected as ambiguous, not
    as unknown. *)
Lemma provider_resolution_not_as_stated :
  ~ @provider_resolution_as_stated _ closes_fine two_providers "Bearer good" (Some "").
Proof.
  intros Hclaim.
  destruct (Hclaim ltac:(discriminate)) as [_ Hmany].
  destruct (Hmany ltac:(simpl; lia)) as (_ & Hunknown & _).
  specialize (Hunknown "" eq_refl).
  assert ("" ∉ auth_providers two_providers) as Hnotin.
  { simpl. rewrite !not_elem_of_cons. split_and!; [done | done | apply not_elem_of_nil]. }
  specialize (Hunknown Hnotin). unfold rejects in Hunknown.
  vm_compute in Hunknown. discriminate.
Qed.

Lemma provider_resolution_witness :
  auth_providers two_providers <> []
  /\ @selects _ closes_fine two_providers "Bearer good" (Some "azuread") "azuread"
  /\ @rejects _ closes_fine two_providers "Bearer good" (Some "") AmbiguousProvider.
Proof.
  assert (auth_providers two_providers <> []) as Hne by discriminate.
  assert (1 < length (auth_providers two_providers))%nat as Hlen by (simpl; lia).
  split; [exact Hne|]. split.
  - refine (proj2 (proj2 (proj2 (@provider_resolution _ closes_fine two_providers
              "Bearer good" (Some "azuread") Hne) Hlen)) "azuread" eq_refl _ _).
    + discriminate.
    + simpl. apply list_elem_of_further, list_elem_of_here.
  - refine (proj1 (proj2 (@provider_resolution _ closes_fine two_providers
              "Bearer good" (Some "") Hne) Hlen) _).
    by right.
Defined.



(** C10 on a hinted request. *)
Lemma recheck_unreachable_witness :
  contains (Some "okta") (auth_providers two_providers) = true
  /\ @authenticate _ closes_fine two_providers "Bearer good" (Some "okta")
     = @authenticate_unchecked _ closes_fine two_providers "Bearer good" (Some "okta").
Proof.
  split.
  - exact (proj1 (@recheck_unreachable _ closes_fine two_providers "Bearer good" (Some "okta"))
             (Some "okta") eq_refl).
  - exact (proj2 (@recheck_unreachable _ closes_fine two_providers "Bearer good" (Some "okta"))).
Defined.

(** C9 on a request that came through a proxy. *)
Lemma get_user_enrichment_witness :
  ip_address (fst (@get_user _ closes_fine two_providers proxied_request alice))
  = Some "203.0.113.7".
Proof.
  refine (proj1 (@get_user_enrichment _ closes_fine two_providers proxied_request alice)
            [("content-type", "application/json")] " 203.0.113.7 , 10.0.0.1" [] eq_refl _).
  repeat constructor. discriminate.
Defined.

(** C6: with no provider configured a principal without the required
    role is let through. *)
Lemma insufficient_role_not_as_stated :
  ~ @insufficient_role_as_stated _ closes_fine no_auth empty_request alice.
Proof.
  intros Hclaim.
  destruct Hclaim as (missing & _ & _ & Hout).
  - intros Hsub. specialize (Hsub "admin" (list_elem_of_here _ _)).
    simpl in Hsub. apply list_elem_of_singleton in Hsub. discriminate.
  - vm_compute in Hout. discriminate.
Qed.

Lemma insufficient_role_witness :
  auth_providers one_provider <> []
  /\ ~ (auth_required_roles one_provider ⊆ roles alice)
  /\ exists missing, NoDup missing
       /\ (forall r, r ∈ missing <-> r ∈ auth_required_roles one_provider /\ r ∉ roles alice)
       /\ outcome (snd (@get_user _ closes_fine one_provider proxied_request alice))
          = inl (InsufficientRole (name alice) missing).
Proof.
  assert (auth_providers one_provider <> []) as Hne by discriminate.
  assert (~ (auth_required_roles one_provider ⊆ roles alice)) as Hmissing.
  { intros Hsub. specialize (Hsub "editor" (list_elem_of_here _ _)).
    simpl in Hsub. apply list_elem_of_singleton in Hsub. discriminate. }
  split; [exact Hne|]. split; [exact Hmissing|].
  exact (@insufficient_role _ closes_fine one_provider proxied_request alice Hne Hmissing).
Defined.

(** C7 on a deployment without providers. *)
Lemma auth_disabled_witness :
  auth_providers no_auth = []
  /\ @authenticate _ closes_fine no_auth "" (Some "okta")
     = ([], inr (@User_new _ closes_fine "n/a" "Anonymous"))
  /\ role_checks (trace (snd (@get_user _ closes_fine no_auth proxied_request
                                 (@User_new _ closes_fine "n/a" "Anonymous")))) = 0%nat
  /\ authorization_checks (trace (snd (@get_user _ closes_fine no_auth proxied_request
                                 (@User_new _ closes_fine "n/a" "Anonymous")))) = 0%nat.
Proof.
  pose proof (@auth_disabled _ closes_fine no_auth "" (Some "okta") proxied_request
                (@User_new _ closes_fine "n/a" "Anonymous") eq_refl)
    as (Hauth & _ & _ & _ & Hroles & Hauthz).
  split; [reflexivity|]. split; [exact Hauth|]. split; [exact Hroles | exact Hauthz].
Defined.

(** ** Further runs on the sample deployment *)


Lemma get_book_outcome_after_release_witness :
  @xw_Book _ closes_fine "{}" = inr 2%nat
  /\ @xw_close _ closes_fine 2%nat = None
  /\ isinstance CancelledError "StopIteration" = false
  /\ isinstance CancelledError "StopAsyncIteration" = false
  /\ @get_book _ closes_fine "{}" (fun _ => Throw CancelledError)
     = ([BookOpen "{}"; BookClose 2%nat], inl CancelledError).
Proof.
  split; [reflexivity|]. split; [reflexivity|].
  split; [reflexivity|]. split; [reflexivity|].
  apply (@get_book_outcome_after_release _ closes_fine "{}"
           (fun _ => Throw CancelledError) 2%nat); [reflexivity | reflexivity |].
  intros e Hthrow. injection Hthrow as <-. split; reflexivity.
Defined.


Lemma Book_dependency_parse_failure_witness :
  outcome (@parse_book_input _ closes_fine empty_request (Some "")) = inl MissingInput
  /\ outcome (@Book_dependency _ closes_fine empty_request (Some "") (fun _ => Send))
     = inl MissingInput
  /\ opened (trace (@Book_dependency _ closes_fine empty_request (Some "") (fun _ => Send)))
     = []
  /\ released (trace (@Book_dependency _ closes_fine empty_request (Some "") (fun _ => Send)))
     = [].
Proof.
  split; [reflexivity|].
  apply (@Book_dependency_parse_failure _ closes_fine empty_request (Some "") (fun _ => Send)).
  reflexivity.
Defined.

Lemma Book_dependency_opens_parsed_document_witness :
  "{}" ∈ opened (trace (@Book_dependency _ closes_fine proxied_request None (fun _ => Send)))
  /\ outcome (@parse_book_input _ closes_fine proxied_request None) = inr "{}".
Proof.
  assert ("{}" ∈ opened (trace (@Book_dependency _ closes_fine proxied_request None
                                  (fun _ => Send)))) as Hin
    by apply list_elem_of_here.
  split; [exact Hin|].
  exact (proj1 (@Book_dependency_opens_parsed_document _ closes_fine proxied_request None
                  (fun _ => Send)) "{}" Hin).
Defined.

Lemma authenticate_invokes_configured_witness :
  "app.auth.okta"
    ∈ invoked (trace (@authenticate _ closes_fine two_providers "Bearer good" (Some "okta")))
  /\ exists p rest, p ∈ auth_providers two_providers
       /\ "app.auth.okta" = "app.auth." +:+ p
       /\ trace (@authenticate _ closes_fine two_providers "Bearer good" (Some "okta"))
          = LogInfo ("Using auth provider " +:+ p) :: ImportModule "app.auth.okta" :: rest.
Proof.
  assert ("app.auth.okta"
            ∈ invoked (trace (@authenticate _ closes_fine two_providers "Bearer good"
                                (Some "okta")))) as Hin
    by apply list_elem_of_here.
  split; [exact Hin|].
  exact (@authenticate_invokes_configured _ closes_fine two_providers "Bearer good"
           (Some "okta") "app.auth.okta" Hin).
Defined.

Lemma authenticate_never_raises_missing_witness :
  outcome (@authenticate _ closes_fine two_providers "Bearer good" (Some "azuread"))
  = inl (ProviderImplementationMissing "azuread")
  /\ isinstance (ProviderImplementationMissing "azuread") "AttributeError" = false
  /\ isinstance (ProviderImplementationMissing "azuread") "ModuleNotFoundError" = false.
Proof.
  split; [reflexivity|].
  apply (@authenticate_never_raises_missing _ closes_fine two_providers "Bearer good"
           (Some "azuread")).
  reflexivity.
Defined.


Lemma authenticate_success_source_witness :
  outcome (@authenticate _ closes_fine one_provider "Bearer good" None) = inr alice
  /\ ((auth_providers one_provider = [] /\ alice = @User_new _ closes_fine "n/a" "Anonymous")
      \/ exists p m validate, p ∈ auth_providers one_provider
           /\ select_provider one_provider None = inr (Some p)
           /\ @import_module _ closes_fine ("app.auth." +:+ p) = inr m
           /\ validate_token m = Some validate
           /\ validate "Bearer good" = inr alice).
Proof.
  split; [reflexivity|].
  apply (@authenticate_success_source _ closes_fine one_provider "Bearer good" None alice).
  reflexivity.
Defined.

Lemma authenticate_single_provider_ignores_hint_witness :
  length (auth_providers one_provider) = 1%nat
  /\ @authenticate _ closes_fine one_provider "Bearer good" None
     = @authenticate _ closes_fine one_provider "Bearer good" (Some "azuread").
Proof.
  split; [reflexivity|].
  apply (@authenticate_single_provider_ignores_hint _ closes_fine one_provider
           "Bearer good" None (Some "azuread")).
  reflexivity.
Defined.

Lemma authenticate_no_retry_witness :
  ("app.auth.okta", "Bearer good")
    ∈ validations (trace (@authenticate _ closes_fine two_providers "Bearer good"
                            (Some "okta")))
  /\ imports (trace (@authenticate _ closes_fine two_providers "Bearer good" (Some "okta")))
     = ["app.auth.okta"].
Proof.
  assert (("app.auth.okta", "Bearer good")
            ∈ validations (trace (@authenticate _ closes_fine two_providers "Bearer good"
                                    (Some "okta")))) as Hin
    by apply list_elem_of_here.
  split; [exact Hin|].
  exact (proj2 (proj2 (proj2 (@authenticate_no_retry _ closes_fine two_providers
                                "Bearer good" (Some "okta")))
                  "app.auth.okta" "Bearer good" Hin)).
Defined.

Lemma get_user_not_authorized_witness :
  auth_providers two_providers <> []
  /\ snd (@get_user _ Faulty.nobody_authorized two_providers proxied_request alice)
     = ([HasRequiredRoles []; IsAuthorized],
        inl (HTTPException 403 "Auth error: Not authorized.")).
Proof.
  assert (auth_providers two_providers <> []) as Hne by discriminate.
  split; [exact Hne|].
  apply (@get_user_not_authorized _ Faulty.nobody_authorized two_providers
           proxied_request alice Hne).
  - vm_compute. reflexivity.
  - reflexivity.
Defined.

Lemma get_user_admits_iff_witness :
  outcome (snd (@get_user _ closes_fine no_auth proxied_request alice))
  = inr (set_ip_address alice (Some "203.0.113.7"))
  /\ set_ip_address alice (Some "203.0.113.7")
     = fst (@get_user _ closes_fine no_auth proxied_request alice).
Proof.
  assert (outcome (snd (@get_user _ closes_fine no_auth proxied_request alice))
          = inr (set_ip_address alice (Some "203.0.113.7"))) as Hout by reflexivity.
  split; [exact Hout|].
  exact (proj1 (@get_user_admits_iff _ closes_fine no_auth proxied_request alice) _ Hout).
Defined.

Lemma get_user_forwarded_ip_clean_witness :
  headers proxied_request
  = ([("content-type", "application/json")]
       ++ ("x-forwarded-for", " 203.0.113.7 , 10.0.0.1") :: [])%list
  /\ exists address,
       ip_address (fst (@get_user _ closes_fine no_auth proxied_request alice)) = Some address
       /\ (","%char ∉ list_ascii_of_string address)
       /\ (forall c t, address = String c t -> isspace c = false)
       /\ (forall t c, address = t +:+ String c "" -> isspace c = false).
Proof.
  split; [reflexivity|].
  apply (@get_user_forwarded_ip_clean _ closes_fine no_auth proxied_request alice
           [("content-type", "application/json")] [] " 203.0.113.7 , 10.0.0.1").
  - reflexivity.
  - repeat constructor. discriminate.
Defined.

Lemma get_user_blank_forwarded_header_witness :
  all_space (first_entry "  ,10.0.0.1") = true
  /\ client Faulty.blank_forwarded_request = Some {| host := "10.0.0.1"; port := 40000 |}
  /\ ip_address (fst (@get_user _ closes_fine no_auth Faulty.blank_forwarded_request alice))
     = Some "".
Proof.
  split; [reflexivity|]. split; [reflexivity|].
  apply (@get_user_blank_forwarded_header _ closes_fine no_auth
           Faulty.blank_forwarded_request alice [] [] "  ,10.0.0.1").
  - reflexivity.
  - constructor.
  - reflexivity.
Defined.

Lemma User_dependency_auth_failure_witness :
  outcome (@authenticate _ closes_fine two_providers "Bearer good" None)
  = inl AmbiguousProvider
  /\ outcome (@User_dependency _ closes_fine two_providers proxied_request "Bearer good" None)
     = inl AmbiguousProvider
  /\ role_checks (trace (@User_dependency _ closes_fine two_providers proxied_request
                           "Bearer good" None)) = 0%nat
  /\ authorization_checks (trace (@User_dependency _ closes_fine two_providers
                                    proxied_request "Bearer good" None)) = 0%nat.
Proof.
  split; [reflexivity|].
  apply (@User_dependency_auth_failure _ closes_fine two_providers proxied_request
           "Bearer good" None).
  reflexivity.
Defined.

Lemma User_dependency_admitted_witness :
  auth_providers two_providers <> []
  /\ outcome (@User_dependency _ closes_fine two_providers proxied_request
                "Bearer good" (Some "okta"))
     = inr (set_ip_address alice (Some "203.0.113.7"))
  /\ exists p m validate user,
       p ∈ auth_providers two_providers
       /\ @import_module _ closes_fine ("app.auth." +:+ p) = inr m
       /\ validate_token m = Some validate
       /\ validate "Bearer good" = inr user
       /\ set_ip_address alice (Some "203.0.113.7")
          = fst (@get_user _ closes_fine two_providers proxied_request user)
       /\ @has_required_roles _ (set_ip_address alice (Some "203.0.113.7"))
            (auth_required_roles two_providers) = true
       /\ @is_authorized _ closes_fine (set_ip_address alice (Some "203.0.113.7")) = true.
Proof.
  assert (auth_providers two_providers <> []) as Hne by discriminate.
  assert (outcome (@User_dependency _ closes_fine two_providers proxied_request
                     "Bearer good" (Some "okta"))
          = inr (set_ip_address alice (Some "203.0.113.7"))) as Hout
    by (vm_compute; reflexivity).
  split; [exact Hne|]. split; [exact Hout|].
  exact (@User_dependency_admitted _ closes_fine two_providers proxied_request
           "Bearer good" (Some "okta") _ Hne Hout).
Defined.


